(** * SizeDemo: the array-size query [getSize] of [Size.h]

    [Size.h] declares one function template,

      template< typename Type, size_t size >
      constexpr size_t getSize(const Type (&)[size]) noexcept { return size; }

    once for Arduino ([size_t] of <stddef.h>) and once for hosted C++
    ([std::size_t] of <cstddef>).  The sketch prints [getSize] of three global
    arrays on every frame, and the README explains why the function is not
    written with [sizeof(array) / sizeof(array[0])].

    The development models
    - the C++ object types the repository mentions, with [sizeof] over a
      platform description ([Cxx]);
    - the template: deduction of [Type] and [size] from the argument's
      type, the instantiated body, the call ([Size]);
    - the alternatives the README discusses ([Readme]);
    - the sketch's [loop] over an Arduboy that records what is drawn
      ([Sketch]). *)

From Stdlib Require Import ZArith Lia Bool.
From stdpp Require Import gmap strings list.

Local Open Scope Z_scope.

(** ** C++ object types and their sizes *)

Module Cxx.

(** Object types, taken modulo [const]: the parameter [const Type (&)[size]]
    binds arrays of [const] and of non-[const] elements alike. *)
Inductive ctype : Type :=
| TBool
| TChar | TSChar | TUChar
| TShort | TUShort
| TInt | TUInt
| TLong | TULong
| TNullptr                      (* decltype(nullptr) *)
| TPtr (pointee : ctype)        (* pointee * *)
| TArr (elem : ctype) (n : Z).  (* elem [n] *)

(** [uint8_t] of <stdint.h>. *)
Definition uint8_t : ctype := TUChar.

#[global] Instance ctype_eq_dec : EqDecision ctype.
Proof. solve_decision. Defined.

(** What the headers and the toolchain fix and the repository does not:
    whether [ARDUINO] is defined, the width of [size_t], the sizes of the
    scalar types, and the largest object the compiler accepts. *)
Record platform : Type := {
  arduino : bool;
  size_bits : Z;
  sizeof_short : Z;
  sizeof_int : Z;
  sizeof_long : Z;
  sizeof_ptr : Z;
  max_object : Z
}.

(** The largest value of [size_t]. *)
Definition size_max (p : platform) : Z := 2 ^ size_bits p - 1.

(** A value of type [size_t]. *)
Definition in_size_t (p : platform) (z : Z) : Prop := 0 <= z <= size_max p.

(** Conversion of an integer to [size_t]: reduction modulo [2 ^ size_bits]. *)
Definition to_size_t (p : platform) (z : Z) : Z := z mod 2 ^ size_bits p.

(** Every scalar occupies at least one byte and [size_t] holds the size of
    every object. *)
Definition platform_ok (p : platform) : Prop :=
  0 < size_bits p /\
  0 < sizeof_short p /\ 0 < sizeof_int p /\ 0 < sizeof_long p /\
  0 < sizeof_ptr p /\
  0 < max_object p <= size_max p.

(** The Arduboy's ATmega32U4 under avr-gcc. *)
Definition avr : platform := {|
  arduino := true;
  size_bits := 16;
  sizeof_short := 2;
  sizeof_int := 2;
  sizeof_long := 4;
  sizeof_ptr := 2;
  max_object := 32767
|}.

(** A hosted LP64 toolchain. *)
Definition lp64 : platform := {|
  arduino := false;
  size_bits := 64;
  sizeof_short := 2;
  sizeof_int := 4;
  sizeof_long := 8;
  sizeof_ptr := 8;
  max_object := 2 ^ 63 - 1
|}.

(** [sizeof(t)]. *)
Fixpoint sizeof (p : platform) (t : ctype) : Z :=
  match t with
  | TBool | TChar | TSChar | TUChar => 1
  | TShort | TUShort => sizeof_short p
  | TInt | TUInt => sizeof_int p
  | TLong | TULong => sizeof_long p
  | TNullptr | TPtr _ => sizeof_ptr p
  | TArr e n => n * sizeof p e
  end.

(** The types a program can name.  An array bound is a constant greater
    than zero ([dcl.array]), so that every object occupies at least one
    byte, and the whole array is an object the toolchain can hold. *)
Fixpoint wf_type (p : platform) (t : ctype) : bool :=
  match t with
  | TPtr u => wf_type p u
  | TArr e n => wf_type p e && (1 <=? n) && (n * sizeof p e <=? max_object p)
  | _ => true
  end.

Definition is_array (t : ctype) : bool :=
  match t with TArr _ _ => true | _ => false end.

Definition is_pointer (t : ctype) : bool :=
  match t with TPtr _ | TNullptr => true | _ => false end.

(** Unsigned division of two [size_t] values; a zero divisor has no value
    (in a constant expression the program is rejected). *)
Definition size_div (a b : Z) : option Z :=
  if b =? 0 then None else Some (a / b).

End Cxx.

(** ** Size.h *)

Module Size.
Import Cxx.

(** An array is passed by reference: the callee receives the object's
    name, not a copy of its elements. *)
Definition aref : Type := string.

(** Deduction of [Type] and [size] from the argument type [A] against the
    parameter [const Type (&)[size]].  A reference parameter suppresses the
    array-to-pointer conversion, so only an array type matches; and
    deduction fails where substitution would form an array of size zero
    ([temp.deduct]), also under a compiler that lets a program declare
    one. *)
Definition deduce (A : ctype) : option (ctype * Z) :=
  match A with
  | TArr E n => if 1 <=? n then Some (E, n) else None
  | _ => None
  end.

(** The specialisation [getSize<Type, size>]: the parameter is unnamed and
    the body is [return size;], in the ARDUINO branch and in the other. *)
Definition getSize (p : platform) (Type_ : ctype) (size : Z) (_ : aref) : Z :=
  if arduino p then size else size.

(** Overload resolution for an argument of type [A]: the specialisation
    that is called, or [None] when the program is rejected. *)
Definition instantiate (p : platform) (A : ctype) : option (aref -> Z) :=
  if wf_type p A then
    match deduce A with
    | Some (T, n) => Some (getSize p T n)
    | None => None
    end
  else None.

#[global] Arguments instantiate : simpl never.
#[global] Arguments getSize : simpl never.

(** The call [getSize(a)] for an lvalue [a] of type [A] naming the object
    [r]. *)
Definition call_getSize (p : platform) (A : ctype) (r : aref) : option Z :=
  f ← instantiate p A; Some (f r).

(** Argument expressions over the declared objects. *)
Inductive arg : Type :=
| AVar (x : string)     (* x *)
| ADecay (x : string)   (* &x[0], what an array decays to *)
| AAddr (x : string)    (* &x *)
| ANull.                (* nullptr *)

Definition arg_type (G : gmap string ctype) (a : arg) : option ctype :=
  match a with
  | AVar x => G !! x
  | ADecay x =>
      match G !! x with
      | Some (TArr E _) => Some (TPtr E)
      | _ => None
      end
  | AAddr x => TPtr <$> G !! x
  | ANull => Some TNullptr
  end.

(** The object an lvalue names. *)
Definition arg_lvalue (a : arg) : option aref :=
  match a with
  | AVar x => Some x
  | _ => None
  end.

(** The expression [getSize(a)] in a program whose declarations are [G]. *)
Definition getSize_expr (p : platform) (G : gmap string ctype) (a : arg)
  : option Z :=
  A ← arg_type G a; f ← instantiate p A; f <$> arg_lvalue a.

(** The declaration [U other[getSize(a)];]: the bound of an array is a
    constant expression, evaluated from the declarations alone. *)
Definition declare_with_bound (p : platform) (G : gmap string ctype)
  (U : ctype) (a : arg) : option ctype :=
  match getSize_expr p G a with
  | Some n => if wf_type p (TArr U n) then Some (TArr U n) else None
  | None => None
  end.

End Size.

(** ** The alternatives of the README *)

Module Readme.
Import Cxx Size.

(** A pointer value: null, or the address of an object. *)
Definition pointer : Type := option string.

(** constexpr std::size_t getSize(const int array[]) noexcept, that is
    [getSize(const int * array)]:
    [return (sizeof(array) / sizeof(array[0]));] *)
Definition getSize_pointer (p : platform) (_ : pointer) : option Z :=
  size_div (sizeof p (TPtr TInt)) (sizeof p TInt).

(** The argument types that convert to [const int *]: a pointer to [int],
    [nullptr], and an array of [int] through array-to-pointer conversion. *)
Definition converts_to_int_pointer (A : ctype) : bool :=
  match A with
  | TPtr TInt | TNullptr | TArr TInt _ => true
  | _ => false
  end.

Definition call_getSize_pointer (p : platform) (A : ctype) (v : pointer)
  : option Z :=
  if wf_type p A && converts_to_int_pointer A then getSize_pointer p v
  else None.

(** template< typename Type, std::size_t size >
    constexpr std::size_t getSize(const Type (&array)[size]) noexcept:
    [return (sizeof(array) / sizeof(array[0]));] *)
Definition getSize_sizeof (p : platform) (Type_ : ctype) (size : Z)
  (_ : aref) : option Z :=
  size_div (sizeof p (TArr Type_ size)) (sizeof p Type_).

Definition call_getSize_sizeof (p : platform) (A : ctype) (r : aref)
  : option Z :=
  if wf_type p A then
    match deduce A with
    | Some (T, n) => getSize_sizeof p T n r
    | None => None
    end
  else None.

(** template< typename Type >
    const Type & max(const Type & left, const Type & right):
    [return (left < right) ? left : right;]
    [lt] is the [<] of [Type]. *)
Definition max {Type_ : Type} (lt : Type_ -> Type_ -> bool)
  (left right : Type_) : Type_ :=
  if lt left right then left else right.

(** Preprocessing tokens, as far as the README's macro needs them. *)
Inductive token : Type :=
| LParen | RParen         (* ( ) *)
| LBracket | RBracket     (* [ ] *)
| Slash                   (* / *)
| Sizeof                  (* sizeof *)
| Zero                    (* 0 *)
| Param                   (* the macro's parameter x *)
| Ident (s : string).     (* any other identifier *)

(** #define SIZE(x) (sizeof(x) / sizeof(x[0])
    the replacement list, token by token as the README prints it. *)
Definition SIZE_body : list token :=
  [ LParen; Sizeof; LParen; Param; RParen; Slash;
    Sizeof; LParen; Param; LBracket; Zero; RBracket; RParen ].

(** Expansion of a function-like macro of one parameter: every occurrence
    of the parameter in the replacement list is replaced by the tokens of
    the argument. *)
Definition expand (body argument : list token) : list token :=
  flat_map (fun t => match t with Param => argument | _ => [t] end) body.

(** [SIZE(argument)] after expansion. *)
Definition SIZE (argument : list token) : list token :=
  expand SIZE_body argument.

(** Opening minus closing parentheses. *)
Fixpoint net_parens (ts : list token) : Z :=
  match ts with
  | [] => 0
  | LParen :: rest => net_parens rest + 1
  | RParen :: rest => net_parens rest - 1
  | _ :: rest => net_parens rest
  end.

(** Parentheses pair up: no closing one comes before its opening one, and
    none is left open. *)
Fixpoint paired_from (depth : Z) (ts : list token) : bool :=
  match ts with
  | [] => depth =? 0
  | LParen :: rest => paired_from (depth + 1) rest
  | RParen :: rest => (1 <=? depth) && paired_from (depth - 1) rest
  | _ :: rest => paired_from depth rest
  end.

Definition paired (ts : list token) : bool := paired_from 0 ts.

End Readme.

(** ** The sketch *)

Module Sketch.
Import Cxx Size.

(** What the sketch asks of the Arduboy2 library, which is not part of the
    repository: the calls that draw are recorded in order, and the answer
    of [nextFrame] is an input. *)
Inductive event : Type :=
| Clear                 (* arduboy.clear() *)
| PrintF (s : string)   (* arduboy.print(F(s)) *)
| Println (n : Z)       (* arduboy.println(n) *)
| Display.              (* arduboy.display() *)

(** The machine: the elements of every declared array, and what has been
    drawn so far. *)
Record world : Type := {
  mem : gmap string (list Z);
  drawn : list event
}.

(** Computations over the machine that may be rejected. *)
Definition M (A : Type) : Type := world -> option (A * world).

Definition ret {A} (a : A) : M A := fun w => Some (a, w).

Definition bind {A B} (c : M A) (k : A -> M B) : M B :=
  fun w => match c w with
           | Some (a, w') => k a w'
           | None => None
           end.

Definition lift {A} (o : option A) : M A :=
  fun w => match o with
           | Some a => Some (a, w)
           | None => None
           end.

Notation "x <~ c ;; k" := (bind c (fun x => k))
  (at level 90, c at next level, right associativity).
Notation "c ;;; k" := (bind c (fun _ => k))
  (at level 90, right associativity).

Definition emit (e : event) : M unit :=
  fun w => Some (tt, {| mem := mem w; drawn := drawn w ++ [e] |}).

(** [getSize(a)] as the sketch runs it: resolved from the declarations, it
    leaves the machine as it found it. *)
Definition getSize_run (p : platform) (G : gmap string ctype) (a : arg)
  : M Z :=
  lift (getSize_expr p G a).

(** const char exampleA[8] PROGMEM {};
    const int exampleB[4] PROGMEM {};
    const uint8_t exampleC[10] PROGMEM {}; *)
Definition globals : gmap string ctype :=
  {[ "exampleA" := TArr TChar 8;
     "exampleB" := TArr TInt 4;
     "exampleC" := TArr uint8_t 10 ]}.

Definition progmem : gmap string (list Z) :=
  {[ "exampleA" := replicate 8 0;
     "exampleB" := replicate 4 0;
     "exampleC" := replicate 10 0 ]}.

Definition boot : world := {| mem := progmem; drawn := [] |}.

(** void loop(): [frame] is the answer of [arduboy.nextFrame()]. *)
Definition loop (frame : bool) : M unit :=
  if negb frame then ret tt
  else
    emit Clear ;;;
    emit (PrintF "exampleA: ") ;;;
    a <~ getSize_run avr globals (AVar "exampleA") ;;
    emit (Println a) ;;;
    emit (PrintF "exampleB: ") ;;;
    b <~ getSize_run avr globals (AVar "exampleB") ;;
    emit (Println b) ;;;
    emit (PrintF "exampleC: ") ;;;
    c <~ getSize_run avr globals (AVar "exampleC") ;;
    emit (Println c) ;;;
    emit Display.

(** The Arduino core calls [loop] again and again; [frames] lists the
    answers of [nextFrame], one per iteration. *)
Fixpoint iterate (frames : list bool) : M unit :=
  match frames with
  | [] => ret tt
  | f :: rest => loop f ;;; iterate rest
  end.

(** The numbers among the recorded calls. *)
Definition printed (l : list event) : list Z :=
  flat_map (fun e => match e with Println n => [n] | _ => [] end) l.

(** What one passage through the drawing part of [loop] records. *)
Definition frame_events : list event :=
  [ Clear;
    PrintF "exampleA: "; Println 8;
    PrintF "exampleB: "; Println 4;
    PrintF "exampleC: "; Println 10;
    Display ].

End Sketch.

(** * Properties *)

Import Cxx Size Readme Sketch.

(** ** The instantiated function and the type rules *)

Section Types.
Variable p : platform.

Lemma getSize_is_size (T : ctype) (n : Z) (r : aref) :
  getSize p T n r = n.
Proof. unfold getSize. now destruct (arduino p). Qed.

Lemma wf_array_inv (T : ctype) (n : Z) :
  wf_type p (TArr T n) = true ->
  wf_type p T = true /\ 1 <= n /\ n * sizeof p T <= max_object p.
Proof.
  cbn [wf_type]. rewrite !andb_true_iff, !Z.leb_le. tauto.
Qed.

Lemma wf_array_intro (T : ctype) (n : Z) :
  wf_type p T = true -> 1 <= n -> n * sizeof p T <= max_object p ->
  wf_type p (TArr T n) = true.
Proof.
  intros HT Hn Hb. cbn [wf_type].
  rewrite !andb_true_iff, !Z.leb_le. tauto.
Qed.

Lemma sizeof_pos (t : ctype) :
  platform_ok p -> wf_type p t = true -> 0 < sizeof p t.
Proof.
  intros (_ & Hs & Hi & Hl & Hp & _).
  induction t as [ | | | | | | | | | | | u IH | e IH n ];
    intros Hwf; cbn [sizeof]; try lia.
  apply wf_array_inv in Hwf as (He & Hn & _).
  specialize (IH He). nia.
Qed.

Lemma instantiate_array (T : ctype) (n : Z) :
  wf_type p (TArr T n) = true ->
  instantiate p (TArr T n) = Some (getSize p T n).
Proof.
  intros Hwf. destruct (wf_array_inv T n Hwf) as (_ & Hn & _).
  unfold instantiate. rewrite Hwf. cbn [deduce].
  now rewrite (proj2 (Z.leb_le 1 n) Hn).
Qed.

Lemma instantiate_Some_inv (A : ctype) (f : aref -> Z) :
  instantiate p A = Some f ->
  exists T n, A = TArr T n /\ wf_type p A = true /\ f = getSize p T n.
Proof.
  unfold instantiate. destruct (wf_type p A) eqn:Hwf; [ | discriminate ].
  destruct A as [ | | | | | | | | | | | u | e n ]; cbn [deduce];
    try discriminate.
  destruct (1 <=? n); [ | discriminate ].
  intros [= <-]. eauto.
Qed.

Lemma instantiate_not_array (A : ctype) :
  is_array A = false -> instantiate p A = None.
Proof.
  intros HA. unfold instantiate.
  destruct A; try discriminate HA; cbn [deduce]; now destruct (wf_type p _).
Qed.

Lemma call_getSize_array (T : ctype) (n : Z) (r : aref) :
  wf_type p (TArr T n) = true -> call_getSize p (TArr T n) r = Some n.
Proof.
  intros Hwf. unfold call_getSize.
  rewrite (instantiate_array _ _ Hwf). cbn.
  now rewrite getSize_is_size.
Qed.

Lemma getSize_expr_var (G : gmap string ctype) (x : string) (T : ctype) (n : Z) :
  G !! x = Some (TArr T n) -> wf_type p (TArr T n) = true ->
  getSize_expr p G (AVar x) = Some n.
Proof.
  intros Hx Hwf. unfold getSize_expr. cbn [arg_type arg_lvalue].
  rewrite Hx. cbn. rewrite (instantiate_array _ _ Hwf). cbn.
  now rewrite getSize_is_size.
Qed.

End Types.

(** ** Size.h on concrete arguments *)

Example getSize_readme_array :
  getSize_expr lp64 {[ "array" := TArr TUChar 10 ]} (AVar "array") = Some 10.
Proof. reflexivity. Qed.

Example getSize_nested_array :
  call_getSize avr (TArr (TArr TLong 3) 5) "grid" = Some 5.
Proof. reflexivity. Qed.

Example getSize_decayed_array :
  getSize_expr avr {[ "array" := TArr TUChar 10 ]} (ADecay "array") = None.
Proof. reflexivity. Qed.

Example getSize_zero_bound_not_deduced :
  deduce (TArr TInt 0) = None /\ wf_type avr (TArr TInt 0) = false.
Proof. split; reflexivity. Qed.

Example getSize_pointer_variable :
  getSize_expr avr {[ "pointer" := TPtr TInt ]} (AVar "pointer") = None.
Proof. reflexivity. Qed.

(** The README's first attempt on the AVR: it takes [nullptr] and an array
    of four [int] alike, and answers [2 / 2]. *)
Example getSize_pointer_nullptr :
  call_getSize_pointer avr TNullptr None = Some 1.
Proof. reflexivity. Qed.

Example getSize_pointer_miscounts :
  call_getSize_pointer avr (TArr TInt 4) (Some "exampleB") = Some 1.
Proof. reflexivity. Qed.

Example getSize_pointer_miscounts_lp64 :
  call_getSize_pointer lp64 (TArr TInt 4) (Some "exampleB") = Some 2.
Proof. reflexivity. Qed.

Lemma avr_ok : platform_ok avr.
Proof. unfold platform_ok, size_max; cbn. lia. Qed.

Lemma lp64_ok : platform_ok lp64.
Proof. unfold platform_ok, size_max; cbn. lia. Qed.

(** ** The array-size query *)

(** C1: for every element type [T] and every length [N], [getSize] called
    on a declared array of [N] elements of type [T] returns exactly [N]. *)
Theorem getSize_returns_length
  (p : platform) (G : gmap string ctype) (x : string) (T : ctype) (N : Z) :
  G !! x = Some (TArr T N) ->
  wf_type p (TArr T N) = true ->
  getSize_expr p G (AVar x) = Some N /\ call_getSize p (TArr T N) x = Some N.
Proof.
  intros Hx Hwf. split.
  - exact (getSize_expr_var p G x T N Hx Hwf).
  - exact (call_getSize_array p T N x Hwf).
Qed.

Lemma getSize_returns_length_witness :
  getSize_expr avr globals (AVar "exampleC") = Some 10 /\
  call_getSize avr (TArr uint8_t 10) "exampleC" = Some 10.
Proof.
  apply (getSize_returns_length avr globals "exampleC" uint8_t 10);
    reflexivity.
Defined.

(** C2: a pointer argument is rejected when the program is compiled: the
    call has no value for a pointer type, for [nullptr], for a decayed array
    and for the address of an object; whenever the call has a value, the
    argument's type is an array type of exactly that many elements. *)
Theorem getSize_rejects_pointers (p : platform) :
  (forall A r, is_pointer A = true -> call_getSize p A r = None) /\
  (forall A r, is_array A = false -> call_getSize p A r = None) /\
  (forall G x, getSize_expr p G (ADecay x) = None
            /\ getSize_expr p G (AAddr x) = None
            /\ getSize_expr p G ANull = None) /\
  (forall A r v, call_getSize p A r = Some v ->
     exists T, A = TArr T v /\ wf_type p A = true).
Proof.
  assert (Hrej : forall A r, is_array A = false -> call_getSize p A r = None).
  { intros A r HA. unfold call_getSize.
    now rewrite (instantiate_not_array p A HA). }
  split; [ | split; [ exact Hrej | split ] ].
  - intros A r HA. apply Hrej. now destruct A.
  - intros G x. unfold getSize_expr. cbn [arg_type arg_lvalue].
    destruct (G !! x) as [A|]; cbn.
    + split; [ | split ].
      * destruct A; cbn; try reflexivity.
        now destruct (instantiate p (TPtr _)).
      * now destruct (instantiate p (TPtr A)).
      * now destruct (instantiate p TNullptr).
    + split; [ reflexivity | split; [ reflexivity | ] ].
      now destruct (instantiate p TNullptr).
  - intros A r v. unfold call_getSize.
    destruct (instantiate p A) as [f|] eqn:Hf; [ | discriminate ].
    apply instantiate_Some_inv in Hf as (T & n & -> & Hwf & ->).
    cbn. rewrite getSize_is_size. intros [= ->]. eauto.
Qed.

Lemma getSize_rejects_pointers_witness :
  call_getSize avr (TPtr TInt) "pointer" = None /\
  call_getSize avr TNullptr "null" = None /\
  exists T, TArr TInt 4 = TArr T 4 /\ wf_type avr (TArr TInt 4) = true.
Proof.
  destruct (getSize_rejects_pointers avr) as (Hptr & _ & _ & Hdom).
  split; [ exact (Hptr (TPtr TInt) "pointer" eq_refl) | ].
  split; [ exact (Hptr TNullptr "null" eq_refl) | ].
  exact (Hdom (TArr TInt 4) "exampleB" 4 eq_refl).
Defined.

(** C3: on a genuine array of [N >= 1] elements of type [T], the quotient
    [sizeof(array) / sizeof(array[0])] is [N]; the template written with
    the quotient and the one that returns the deduced [size] agree on every
    argument. *)
Theorem getSize_sizeof_is_getSize (p : platform) (Hp : platform_ok p) :
  (forall T N r, wf_type p (TArr T N) = true ->
     1 <= N /\ getSize_sizeof p T N r = Some N
     /\ getSize_sizeof p T N r = Some (getSize p T N r)) /\
  (forall A r, call_getSize_sizeof p A r = call_getSize p A r).
Proof.
  assert (Hq : forall T N r, wf_type p (TArr T N) = true ->
                             getSize_sizeof p T N r = Some N).
  { intros T N r Hwf.
    destruct (wf_array_inv p T N Hwf) as (HT & HN & _).
    pose proof (sizeof_pos p T Hp HT) as Hpos.
    unfold getSize_sizeof, size_div. cbn [sizeof].
    destruct (Z.eqb_spec (sizeof p T) 0) as [E|_]; [ lia | ].
    f_equal. apply Z.div_mul. lia. }
  split.
  - intros T N r Hwf. split; [ | split ].
    + now apply wf_array_inv in Hwf.
    + now apply Hq.
    + rewrite getSize_is_size. now apply Hq.
  - intros A r. unfold call_getSize_sizeof, call_getSize, instantiate.
    destruct (wf_type p A) eqn:Hwf; [ | reflexivity ].
    destruct A as [ | | | | | | | | | | | u | e n ]; cbn [deduce];
      try reflexivity.
    destruct (1 <=? n); [ | reflexivity ].
    cbn. rewrite getSize_is_size. now apply Hq.
Qed.

Lemma getSize_sizeof_is_getSize_witness :
  platform_ok avr /\
  getSize_sizeof avr TInt 4 "exampleB" = Some 4 /\
  call_getSize_sizeof avr (TArr TInt 4) "exampleB"
    = call_getSize avr (TArr TInt 4) "exampleB".
Proof.
  split; [ exact avr_ok | ].
  destruct (getSize_sizeof_is_getSize avr avr_ok) as [Hq Heq].
  split.
  - exact (proj1 (proj2 (Hq TInt 4 "exampleB" eq_refl))).
  - exact (Heq (TArr TInt 4) "exampleB").
Defined.

(** C4: the lengths at which [getSize] answers start at 1: a declared
    length of 0 is no array type, and the call is rejected; for every
    length [N] from 1 to any [K] that the toolchain admits for the element
    type, the value returned is [N]. *)
Theorem getSize_lengths_from_one
  (p : platform) (T : ctype) (K N : Z) (r : aref) :
  platform_ok p ->
  wf_type p T = true ->
  K * sizeof p T <= max_object p ->
  1 <= N <= K ->
  call_getSize p (TArr T N) r = Some N.
Proof.
  intros Hp HT HK [HN1 HNK].
  apply call_getSize_array, wf_array_intro; trivial.
  pose proof (sizeof_pos p T Hp HT). nia.
Qed.

Lemma getSize_lengths_from_one_witness :
  platform_ok avr /\ wf_type avr TInt = true /\
  300 * sizeof avr TInt <= max_object avr /\ 1 <= 300 <= 300 /\
  call_getSize avr (TArr TInt 300) "table" = Some 300.
Proof.
  split; [ exact avr_ok | ].
  split; [ reflexivity | ].
  split; [ cbn; lia | ].
  split; [ lia | ].
  apply (getSize_lengths_from_one avr TInt 300 300 "table");
    [ exact avr_ok | reflexivity | cbn; lia | lia ].
Defined.

Lemma getSize_length_zero_rejected :
  call_getSize avr (TArr TInt 0) "empty" = None /\
  ~ (forall N, 0 <= N <= 300 ->
       call_getSize avr (TArr TInt N) "empty" = Some N).
Proof.
  split; [ reflexivity | ].
  intros H. specialize (H 0 ltac:(lia)). discriminate H.
Qed.

Lemma wf_array_bound_in_size_t (p : platform) (T : ctype) (N : Z) :
  platform_ok p -> wf_type p (TArr T N) = true -> in_size_t p N.
Proof.
  intros Hp Hwf.
  destruct (wf_array_inv p T N Hwf) as (HT & HN & Hb).
  pose proof (sizeof_pos p T Hp HT).
  destruct Hp as (_ & _ & _ & _ & _ & _ & Hmax).
  unfold in_size_t. nia.
Qed.




(** ** The call on the machine *)

Lemma getSize_run_lift (p : platform) (G : gmap string ctype) (a : arg)
  (w : world) :
  getSize_run p G a w = (fun v => (v, w)) <$> getSize_expr p G a.
Proof. unfold getSize_run, lift. now destruct (getSize_expr p G a). Qed.

Lemma getSize_run_var (p : platform) (G : gmap string ctype) (x : string)
  (T : ctype) (N : Z) (w : world) :
  G !! x = Some (TArr T N) -> wf_type p (TArr T N) = true ->
  getSize_run p G (AVar x) w = Some (N, w).
Proof.
  intros Hx Hwf. rewrite getSize_run_lift.
  now rewrite (getSize_expr_var p G x T N Hx Hwf).
Qed.

(** C5: the result is fixed when the program is compiled.  It is a function
    of the declarations alone, the same on every machine; two arrays of one
    element type and one length give the same result whatever they hold;
    and the call serves as the bound of another array. *)
Theorem getSize_compile_time
  (p : platform) (G : gmap string ctype) (x y : string) (T U : ctype) (N : Z) :
  G !! x = Some (TArr T N) ->
  G !! y = Some (TArr T N) ->
  wf_type p (TArr T N) = true ->
  (forall w1 w2,
     fst <$> getSize_run p G (AVar x) w1 = fst <$> getSize_run p G (AVar y) w2) /\
  (forall w, fst <$> getSize_run p G (AVar x) w = getSize_expr p G (AVar x)) /\
  getSize p T N x = getSize p T N y /\
  (wf_type p (TArr U N) = true ->
   declare_with_bound p G U (AVar x) = Some (TArr U N)).
Proof.
  intros Hx Hy Hwf. split; [ | split; [ | split ] ].
  - intros w1 w2.
    rewrite (getSize_run_var p G x T N w1 Hx Hwf).
    now rewrite (getSize_run_var p G y T N w2 Hy Hwf).
  - intros w. rewrite getSize_run_lift.
    now destruct (getSize_expr p G (AVar x)).
  - now rewrite !getSize_is_size.
  - intros HU. unfold declare_with_bound.
    rewrite (getSize_expr_var p G x T N Hx Hwf). now rewrite HU.
Qed.

Lemma getSize_compile_time_witness :
  let G : gmap string ctype :=
    {[ "left" := TArr TInt 4; "right" := TArr TInt 4 ]} in
  let w1 := {| mem := {[ "left" := [1; 2; 3; 4]; "right" := [0; 0; 0; 0] ]};
               drawn := [] |} in
  let w2 := {| mem := {[ "left" := [9; 9; 9; 9]; "right" := [5; 6; 7; 8] ]};
               drawn := [Clear] |} in
  fst <$> getSize_run avr G (AVar "left") w1
    = fst <$> getSize_run avr G (AVar "right") w2 /\
  declare_with_bound avr G TLong (AVar "left") = Some (TArr TLong 4).
Proof.
  intros G w1 w2.
  destruct (getSize_compile_time avr G "left" "right" TInt TLong 4
              eq_refl eq_refl eq_refl) as (Hw & _ & _ & Hb).
  split; [ exact (Hw w1 w2) | exact (Hb eq_refl) ].
Defined.

(** C6: [getSize] is pure and total: on every declared array it has a
    value, on every machine, and the machine after the call is the machine
    before it. *)
Theorem getSize_total
  (p : platform) (G : gmap string ctype) (x : string) (T : ctype) (N : Z)
  (w : world) :
  G !! x = Some (TArr T N) ->
  wf_type p (TArr T N) = true ->
  is_Some (getSize_expr p G (AVar x)) /\
  exists v, getSize_run p G (AVar x) w = Some (v, w).
Proof.
  intros Hx Hwf. split.
  - rewrite (getSize_expr_var p G x T N Hx Hwf). now exists N.
  - exists N. exact (getSize_run_var p G x T N w Hx Hwf).
Qed.

Lemma getSize_total_witness :
  is_Some (getSize_expr avr globals (AVar "exampleA")) /\
  exists v, getSize_run avr globals (AVar "exampleA") boot = Some (v, boot).
Proof.
  apply (getSize_total avr globals "exampleA" TChar 8 boot); reflexivity.
Defined.

(** C7: two arrays of different element types [T] and [U] and one length
    [N]: each call selects its own specialisation and returns [N], in
    either order of the two calls. *)
Theorem getSize_independent_instantiations
  (p : platform) (G : gmap string ctype) (x y : string) (T U : ctype) (N : Z)
  (w : world) :
  T <> U ->
  G !! x = Some (TArr T N) ->
  G !! y = Some (TArr U N) ->
  wf_type p (TArr T N) = true ->
  wf_type p (TArr U N) = true ->
  instantiate p (TArr T N) = Some (getSize p T N) /\
  instantiate p (TArr U N) = Some (getSize p U N) /\
  (a <~ getSize_run p G (AVar x) ;;
   b <~ getSize_run p G (AVar y) ;; ret (a, b)) w = Some ((N, N), w) /\
  (b <~ getSize_run p G (AVar y) ;;
   a <~ getSize_run p G (AVar x) ;; ret (a, b)) w = Some ((N, N), w).
Proof.
  intros _ Hx Hy HT HU.
  split; [ exact (instantiate_array p T N HT) | ].
  split; [ exact (instantiate_array p U N HU) | ].
  unfold bind, ret.
  rewrite (getSize_run_var p G x T N w Hx HT).
  rewrite (getSize_run_var p G y U N w Hy HU).
  rewrite (getSize_run_var p G x T N w Hx HT).
  split; reflexivity.
Qed.

Lemma getSize_independent_instantiations_witness :
  let G : gmap string ctype :=
    {[ "text" := TArr TChar 8; "words" := TArr TInt 8 ]} in
  (a <~ getSize_run avr G (AVar "text") ;;
   b <~ getSize_run avr G (AVar "words") ;; ret (a, b)) boot
    = Some ((8, 8), boot).
Proof.
  intros G.
  refine (proj1 (proj2 (proj2 (getSize_independent_instantiations
            avr G "text" "words" TChar TInt 8 boot _ eq_refl eq_refl
            eq_refl eq_refl)))).
  discriminate.
Defined.

(** C10: the array is taken by reference to [const] and nothing is
    written or read: the machine after the call is the machine before it,
    elements and display alike, and the value does not depend on the
    machine. *)
Theorem getSize_frame
  (p : platform) (G : gmap string ctype) (a : arg) (w : world) :
  getSize_run p G a w = (fun v => (v, w)) <$> getSize_expr p G a /\
  (forall v w', getSize_run p G a w = Some (v, w') ->
     w' = w /\ mem w' = mem w /\ drawn w' = drawn w) /\
  (forall w2, fst <$> getSize_run p G a w = fst <$> getSize_run p G a w2).
Proof.
  split; [ apply getSize_run_lift | split ].
  - intros v w'. rewrite getSize_run_lift.
    destruct (getSize_expr p G a); cbn; [ | discriminate ].
    intros [= _ <-]. auto.
  - intros w2. rewrite !getSize_run_lift.
    now destruct (getSize_expr p G a).
Qed.

Lemma getSize_frame_witness :
  getSize_run avr globals (AVar "exampleB") boot = Some (4, boot) /\
  (boot = boot /\ mem boot = mem boot /\ drawn boot = drawn boot).
Proof.
  destruct (getSize_frame avr globals (AVar "exampleB") boot)
    as (Hrun & Hsame & _).
  split; [ exact Hrun | ].
  exact (Hsame 4 boot Hrun).
Defined.

(** ** The sketch *)

Lemma sketch_sizes :
  getSize_expr avr globals (AVar "exampleA") = Some 8 /\
  getSize_expr avr globals (AVar "exampleB") = Some 4 /\
  getSize_expr avr globals (AVar "exampleC") = Some 10.
Proof. repeat split; reflexivity. Qed.

Lemma loop_frame (w : world) :
  loop true w = Some (tt, {| mem := mem w; drawn := drawn w ++ frame_events |}).
Proof.
  destruct sketch_sizes as (HA & HB & HC).
  unfold loop, bind, emit, getSize_run, lift. cbn [negb].
  rewrite HA, HB, HC. cbn [mem drawn].
  unfold frame_events. now rewrite <- !app_assoc.
Qed.

Lemma loop_no_frame (w : world) : loop false w = Some (tt, w).
Proof. reflexivity. Qed.

Lemma printed_app (l1 l2 : list event) :
  printed (l1 ++ l2) = printed l1 ++ printed l2.
Proof. unfold printed. apply flat_map_app. Qed.

Lemma iterate_drawn (frames : list bool) :
  forall w, exists w',
    iterate frames w = Some (tt, w') /\
    mem w' = mem w /\
    drawn w' =
      drawn w ++ flat_map (fun f : bool => if f then frame_events else []) frames.
Proof.
  induction frames as [ | f rest IH ]; intros w.
  - exists w. cbn. now rewrite app_nil_r.
  - cbn [iterate]. unfold bind at 1. destruct f.
    + rewrite loop_frame.
      destruct (IH {| mem := mem w; drawn := drawn w ++ frame_events |})
        as (w' & Hrun & Hmem & Hdrawn).
      exists w'. split; [ exact Hrun | split; [ exact Hmem | ] ].
      rewrite Hdrawn. cbn [mem drawn flat_map]. now rewrite <- app_assoc.
    + rewrite loop_no_frame.
      destruct (IH w) as (w' & Hrun & Hmem & Hdrawn).
      exists w'. split; [ exact Hrun | split; [ exact Hmem | ] ].
      rewrite Hdrawn. reflexivity.
Qed.

Lemma printed_frames (frames : list bool) :
  printed (flat_map (fun f : bool => if f then frame_events else []) frames)
  = flat_map (fun f : bool => if f then [8; 4; 10] else []) frames.
Proof.
  induction frames as [ | f rest IH ]; [ reflexivity | ].
  cbn [flat_map]. rewrite printed_app, IH. now destruct f.
Qed.

(** C8: [getSize] of the three arrays of the sketch is 8, 4 and 10.  An
    iteration of [loop] on which [nextFrame] answers true draws the three
    labelled values in that order and nothing else between [clear] and
    [display]; an iteration on which it answers false draws nothing.  Over
    any run, the numbers printed are 8, 4, 10 once per frame. *)
Theorem sketch_prints_sizes :
  getSize_expr avr globals (AVar "exampleA") = Some 8 /\
  getSize_expr avr globals (AVar "exampleB") = Some 4 /\
  getSize_expr avr globals (AVar "exampleC") = Some 10 /\
  (forall w, loop true w
             = Some (tt, {| mem := mem w; drawn := drawn w ++ frame_events |})) /\
  printed frame_events = [8; 4; 10] /\
  (forall w, loop false w = Some (tt, w)) /\
  (forall frames w, exists w',
     iterate frames w = Some (tt, w') /\
     mem w' = mem w /\
     printed (drawn w') =
       printed (drawn w)
       ++ flat_map (fun f : bool => if f then [8; 4; 10] else []) frames).
Proof.
  destruct sketch_sizes as (HA & HB & HC).
  repeat (split; [ assumption || reflexivity || exact loop_frame | ]).
  intros frames w.
  destruct (iterate_drawn frames w) as (w' & Hrun & Hmem & Hdrawn).
  exists w'. split; [ exact Hrun | split; [ exact Hmem | ] ].
  now rewrite Hdrawn, printed_app, printed_frames.
Qed.

Lemma loop_without_frame_prints_nothing :
  loop false boot = Some (tt, boot) /\
  printed (drawn boot) = [] /\
  ~ (forall frame, exists w',
       loop frame boot = Some (tt, w') /\ printed (drawn w') = [8; 4; 10]).
Proof.
  split; [ reflexivity | split; [ reflexivity | ] ].
  intros H. destruct (H false) as (w' & Hrun & Hprinted).
  rewrite loop_no_frame in Hrun. injection Hrun as <-.
  discriminate Hprinted.
Qed.

(** * Further properties *)

(** ** Size.h: where the call is accepted, and what it returns *)

Lemma call_getSize_Some_inv (p : platform) (A : ctype) (r : aref) (v : Z) :
  call_getSize p A r = Some v ->
  exists T, A = TArr T v /\ wf_type p (TArr T v) = true.
Proof.
  unfold call_getSize.
  destruct (instantiate p A) as [f|] eqn:Hf; [ | discriminate ].
  apply instantiate_Some_inv in Hf as (T & n & -> & Hwf & ->).
  cbn. rewrite getSize_is_size. intros [= ->]. eauto.
Qed.

(** A string literal of five characters is an array of six [char]; a row of
    a grid is an array too. *)
Example getSize_string_literal :
  call_getSize lp64 (TArr TChar 6) "hello" = Some 6.
Proof. reflexivity. Qed.

Example getSize_grid_row :
  call_getSize lp64 (TArr TInt 3) "grid[0]" = Some 3.
Proof. reflexivity. Qed.

(** X1: the call is accepted exactly when the type of the argument is a
    well-formed array type [T[v]], and its value is then [v], whatever
    expression the argument is; in particular [getSize(x)] of a name [x]
    is accepted exactly when [x] is declared with such a type, an
    undeclared [x] or one of another type leaving the program rejected. *)
Theorem getSize_call_domain (p : platform) (v : Z) :
  (forall A r,
     call_getSize p A r = Some v <->
     exists T, A = TArr T v /\ wf_type p (TArr T v) = true) /\
  (forall G x,
     getSize_expr p G (AVar x) = Some v <->
     exists T, G !! x = Some (TArr T v) /\ wf_type p (TArr T v) = true).
Proof.
  split.
  - intros A r. split.
    + apply call_getSize_Some_inv.
    + intros (T & -> & Hwf). exact (call_getSize_array p T v r Hwf).
  - intros G x. split.
    + unfold getSize_expr. cbn [arg_type arg_lvalue].
      destruct (G !! x) as [A|] eqn:HA; cbn; [ | discriminate ].
      destruct (instantiate p A) as [f|] eqn:Hf; cbn; [ | discriminate ].
      apply instantiate_Some_inv in Hf as (T & n & -> & Hwf & ->).
      rewrite getSize_is_size. intros [= ->]. eauto.
    + intros (T & Hx & Hwf). exact (getSize_expr_var p G x T v Hx Hwf).
Qed.

Lemma getSize_call_domain_witness :
  call_getSize lp64 (TArr TChar 6) "hello" = Some 6 /\
  getSize_expr avr globals (AVar "missing") <> Some 8.
Proof.
  destruct (getSize_call_domain lp64 6) as [Hcall _].
  destruct (getSize_call_domain avr 8) as [_ Hexpr].
  split.
  - apply Hcall. exists TChar. split; reflexivity.
  - intros H. apply Hexpr in H as (T & Hx & _). discriminate Hx.
Defined.

(** X2: the result does not depend on the platform: whichever branch of the
    [#if] is compiled and whatever the sizes of the scalar types, an array
    type that two platforms both accept has the same [getSize] on both. *)
Theorem getSize_portable
  (p q : platform) (A : ctype) (r r' : aref) (v : Z) :
  call_getSize p A r = Some v ->
  wf_type q A = true ->
  call_getSize q A r' = Some v.
Proof.
  intros Hp Hq.
  destruct (call_getSize_Some_inv p A r v Hp) as (T & -> & _).
  exact (call_getSize_array q T v r' Hq).
Qed.

Lemma getSize_portable_witness :
  call_getSize lp64 (TArr TLong 12) "host" = Some 12.
Proof.
  apply (getSize_portable avr lp64 (TArr TLong 12) "board" "host" 12);
    reflexivity.
Defined.

(** X3: a value of [getSize] is never 0 and never more than the largest
    object's size in bytes; it is a value of [size_t], and converting it to
    [size_t] changes nothing. *)
Theorem getSize_value_bounds (p : platform) (A : ctype) (r : aref) (v : Z) :
  platform_ok p ->
  call_getSize p A r = Some v ->
  1 <= v <= max_object p /\ in_size_t p v /\ to_size_t p v = v.
Proof.
  intros Hp Hv.
  destruct (call_getSize_Some_inv p A r v Hv) as (T & -> & Hwf).
  pose proof (wf_array_bound_in_size_t p T v Hp Hwf) as Hin.
  destruct (wf_array_inv p T v Hwf) as (HT & Hv1 & Hb).
  pose proof (sizeof_pos p T Hp HT) as Hpos.
  split; [ nia | split; [ exact Hin | ] ].
  unfold to_size_t. apply Z.mod_small.
  unfold in_size_t, size_max in Hin. lia.
Qed.

Lemma getSize_value_bounds_witness :
  1 <= 10 <= max_object avr /\ in_size_t avr 10 /\ to_size_t avr 10 = 10.
Proof.
  apply (getSize_value_bounds avr (TArr uint8_t 10) "exampleC" 10);
    [ exact avr_ok | reflexivity ].
Defined.

(** X4: on an array of arrays, [Type] is deduced as the row type:
    [getSize] counts the rows, [getSize] of a row counts its elements, and
    the two counts times the element's size make up [sizeof] of the
    whole. *)
Theorem getSize_counts_rows
  (p : platform) (T : ctype) (rows cols : Z) (r r' : aref) :
  wf_type p (TArr (TArr T cols) rows) = true ->
  call_getSize p (TArr (TArr T cols) rows) r = Some rows /\
  call_getSize p (TArr T cols) r' = Some cols /\
  deduce (TArr (TArr T cols) rows) = Some (TArr T cols, rows) /\
  sizeof p (TArr (TArr T cols) rows) = rows * cols * sizeof p T.
Proof.
  intros Hwf.
  destruct (wf_array_inv p _ _ Hwf) as (Hrow & Hrows & _).
  split; [ exact (call_getSize_array p _ rows r Hwf) | ].
  split; [ exact (call_getSize_array p T cols r' Hrow) | ].
  split.
  - cbn [deduce]. now rewrite (proj2 (Z.leb_le 1 rows) Hrows).
  - cbn [sizeof]. ring.
Qed.

Lemma getSize_counts_rows_witness :
  call_getSize avr (TArr (TArr TInt 3) 5) "grid" = Some 5 /\
  call_getSize avr (TArr TInt 3) "row" = Some 3 /\
  deduce (TArr (TArr TInt 3) 5) = Some (TArr TInt 3, 5) /\
  sizeof avr (TArr (TArr TInt 3) 5) = 5 * 3 * sizeof avr TInt.
Proof.
  apply (getSize_counts_rows avr TInt 5 3 "grid" "row"). reflexivity.
Defined.

(** X5: an array declared with the bound [getSize(a)] has the element count
    of [a]: [getSize] of the new array is [getSize(a)] again. *)
Theorem getSize_of_declared_with_bound
  (p : platform) (G : gmap string ctype) (U B : ctype) (a : arg) (y : string) :
  declare_with_bound p G U a = Some B ->
  is_Some (getSize_expr p G a) /\
  getSize_expr p (<[ y := B ]> G) (AVar y) = getSize_expr p G a.
Proof.
  unfold declare_with_bound.
  destruct (getSize_expr p G a) as [n|]; [ | discriminate ].
  destruct (wf_type p (TArr U n)) eqn:Hwf; [ | discriminate ].
  intros [= <-]. split; [ now exists n | ].
  apply (getSize_expr_var p _ y U n); [ | exact Hwf ].
  apply lookup_insert_eq.
Qed.

Lemma getSize_of_declared_with_bound_witness :
  getSize_expr avr (<[ "copy" := TArr TLong 8 ]> globals) (AVar "copy")
  = getSize_expr avr globals (AVar "exampleA").
Proof.
  exact (proj2 (getSize_of_declared_with_bound avr globals TLong
                  (TArr TLong 8) (AVar "exampleA") "copy" eq_refl)).
Defined.

(** ** The README's [max] *)

Example max_readme_call : max Z.ltb 5 10 = 5.
Proof. reflexivity. Qed.

(** On a tie under [<] the second argument is the one returned. *)
Example max_tie_returns_right :
  max (fun a b : Z * string => fst a <? fst b) (1, "left") (1, "right")
  = (1, "right").
Proof. reflexivity. Qed.

(** X6: [max] returns one of its two arguments, and whenever [<] is
    asymmetric neither argument is less than the one returned: the
    function named [max] selects a least of the two, not a greatest. *)
Theorem max_returns_a_least
  {A : Type} (lt : A -> A -> bool) (left right : A) :
  (forall a b, lt a b = true -> lt b a = false) ->
  (max lt left right = left \/ max lt left right = right) /\
  lt left (max lt left right) = false /\
  lt right (max lt left right) = false /\
  (lt left right = true -> max lt left right = left) /\
  (lt left right = false -> max lt left right = right).
Proof.
  intros Hasym.
  assert (Hirr : forall a, lt a a = false).
  { intros a. destruct (lt a a) eqn:E; [ | reflexivity ].
    rewrite <- E at 1. now apply Hasym. }
  unfold max. destruct (lt left right) eqn:Hlr.
  - split; [ now left | ].
    split; [ apply Hirr | ].
    split; [ now apply Hasym | ].
    split; [ reflexivity | discriminate ].
  - split; [ now right | ].
    split; [ exact Hlr | ].
    split; [ apply Hirr | ].
    split; [ discriminate | reflexivity ].
Qed.

Lemma max_returns_a_least_witness :
  (max Z.ltb 5 10 = 5 \/ max Z.ltb 5 10 = 10) /\
  (5 <? max Z.ltb 5 10) = false /\
  (10 <? max Z.ltb 5 10) = false /\
  ((5 <? 10) = true -> max Z.ltb 5 10 = 5) /\
  ((5 <? 10) = false -> max Z.ltb 5 10 = 10).
Proof.
  apply (max_returns_a_least Z.ltb 5 10).
  intros a b. rewrite Z.ltb_lt, Z.ltb_ge. lia.
Defined.

(** X7: on integers [max] is the minimum; it is the maximum only when the
    two arguments are equal. *)
Theorem max_is_min_on_integers (left right : Z) :
  max Z.ltb left right = Z.min left right /\
  (max Z.ltb left right = Z.max left right <-> left = right).
Proof.
  unfold max. destruct (Z.ltb_spec left right) as [Hlt|Hge].
  - split; [ lia | ]. split; lia.
  - split; [ lia | ]. split; lia.
Qed.

(** ** The README's pointer version *)

Lemma call_getSize_pointer_Some_inv
  (p : platform) (A : ctype) (v : pointer) (k : Z) :
  call_getSize_pointer p A v = Some k ->
  wf_type p A = true /\ converts_to_int_pointer A = true /\
  sizeof_int p <> 0 /\ k = sizeof_ptr p / sizeof_int p.
Proof.
  unfold call_getSize_pointer, getSize_pointer, size_div. cbn [sizeof].
  destruct (wf_type p A); cbn [andb]; [ | discriminate ].
  destruct (converts_to_int_pointer A); [ | discriminate ].
  destruct (Z.eqb_spec (sizeof_int p) 0) as [E|E]; [ discriminate | ].
  intros [= <-]. auto.
Qed.

Lemma call_getSize_pointer_accepts
  (p : platform) (A : ctype) (v : pointer) :
  platform_ok p -> wf_type p A = true -> converts_to_int_pointer A = true ->
  call_getSize_pointer p A v = Some (sizeof_ptr p / sizeof_int p).
Proof.
  intros (_ & _ & Hi & _) Hwf Hc.
  unfold call_getSize_pointer, getSize_pointer, size_div. cbn [sizeof].
  rewrite Hwf, Hc. cbn [andb].
  destruct (Z.eqb_spec (sizeof_int p) 0) as [E|E]; [ lia | reflexivity ].
Qed.

(** X8: the pointer version answers with one constant,
    [sizeof(const int * ) / sizeof(int)], whatever it is given: two accepted
    calls return the same value, and where a pointer is as wide as an
    [int] that value is 1. *)
Theorem getSize_pointer_ignores_argument
  (p : platform) (A B : ctype) (u v : pointer) (j k : Z) :
  call_getSize_pointer p A u = Some j ->
  call_getSize_pointer p B v = Some k ->
  j = k /\ k = sizeof_ptr p / sizeof_int p /\
  (sizeof_ptr p = sizeof_int p -> k = 1).
Proof.
  intros HA HB.
  apply call_getSize_pointer_Some_inv in HA as (_ & _ & _ & ->).
  apply call_getSize_pointer_Some_inv in HB as (_ & _ & Hnz & ->).
  split; [ reflexivity | split; [ reflexivity | ] ].
  intros ->. now apply Z.div_same.
Qed.

Lemma getSize_pointer_ignores_argument_witness :
  call_getSize_pointer avr (TArr TInt 4) (Some "exampleB") = Some 1 /\
  call_getSize_pointer avr TNullptr None = Some 1 /\
  1 = sizeof_ptr avr / sizeof_int avr.
Proof.
  split; [ reflexivity | split; [ reflexivity | ] ].
  exact (proj1 (proj2 (getSize_pointer_ignores_argument avr (TArr TInt 4)
                         TNullptr (Some "exampleB") None 1 1
                         eq_refl eq_refl))).
Defined.

(** X9: on an array of [int] the pointer version is right for one length
    only, the quotient of the two sizes; [getSize] is right for all. *)
Theorem getSize_pointer_right_once
  (p : platform) (N : Z) (v : pointer) (r : aref) :
  platform_ok p ->
  wf_type p (TArr TInt N) = true ->
  (call_getSize_pointer p (TArr TInt N) v = Some N
   <-> N = sizeof_ptr p / sizeof_int p) /\
  call_getSize p (TArr TInt N) r = Some N.
Proof.
  intros Hp Hwf.
  split; [ | exact (call_getSize_array p TInt N r Hwf) ].
  rewrite (call_getSize_pointer_accepts p (TArr TInt N) v Hp Hwf eq_refl).
  split; [ now intros [= <-] | now intros <- ].
Qed.

Lemma getSize_pointer_right_once_witness :
  (call_getSize_pointer avr (TArr TInt 4) None = Some 4
   <-> 4 = sizeof_ptr avr / sizeof_int avr) /\
  call_getSize avr (TArr TInt 4) "exampleB" = Some 4.
Proof.
  apply (getSize_pointer_right_once avr 4 None "exampleB");
    [ exact avr_ok | reflexivity ].
Defined.

(** X10: the pointer version serves one element type: an array of anything
    but [int] is rejected by it and counted by [getSize]; a pointer to
    [int] and [nullptr] are taken by it and rejected by [getSize]. *)
Theorem getSize_pointer_one_type
  (p : platform) (T : ctype) (N : Z) (v : pointer) (r : aref) :
  platform_ok p ->
  wf_type p (TArr T N) = true ->
  T <> TInt ->
  call_getSize_pointer p (TArr T N) v = None /\
  call_getSize p (TArr T N) r = Some N /\
  is_Some (call_getSize_pointer p (TPtr TInt) v) /\
  call_getSize p (TPtr TInt) r = None /\
  is_Some (call_getSize_pointer p TNullptr v) /\
  call_getSize p TNullptr r = None.
Proof.
  intros Hp Hwf HT.
  split.
  { unfold call_getSize_pointer. rewrite Hwf. cbn [andb].
    destruct T; try reflexivity. now contradiction HT. }
  split; [ exact (call_getSize_array p T N r Hwf) | ].
  split.
  { rewrite (call_getSize_pointer_accepts p (TPtr TInt) v Hp eq_refl eq_refl).
    eauto. }
  split.
  { unfold call_getSize. now rewrite (instantiate_not_array p (TPtr TInt) eq_refl). }
  split.
  { rewrite (call_getSize_pointer_accepts p TNullptr v Hp eq_refl eq_refl).
    eauto. }
  unfold call_getSize. now rewrite (instantiate_not_array p TNullptr eq_refl).
Qed.

Lemma getSize_pointer_one_type_witness :
  call_getSize_pointer avr (TArr TChar 8) (Some "exampleA") = None /\
  call_getSize avr (TArr TChar 8) "exampleA" = Some 8.
Proof.
  destruct (getSize_pointer_one_type avr TChar 8 (Some "exampleA") "exampleA"
              avr_ok eq_refl ltac:(discriminate)) as (H1 & H2 & _).
  split; [ exact H1 | exact H2 ].
Defined.

(** ** The README's macro *)

Lemma net_parens_app (a b : list token) :
  net_parens (a ++ b) = net_parens a + net_parens b.
Proof.
  induction a as [ | t a IH ]; [ reflexivity | ].
  destruct t; cbn [app net_parens]; rewrite IH; ring.
Qed.

Lemma paired_from_net (ts : list token) :
  forall depth, paired_from depth ts = true -> depth + net_parens ts = 0.
Proof.
  induction ts as [ | t ts IH ]; intros depth H.
  - cbn in H |- *. apply Z.eqb_eq in H. lia.
  - destruct t; cbn [paired_from net_parens] in H |- *;
      try (apply andb_true_iff in H as [_ H]);
      apply IH in H; lia.
Qed.

Lemma SIZE_tokens (argument : list token) :
  SIZE argument =
    [LParen; Sizeof; LParen] ++ argument
    ++ [RParen; Slash; Sizeof; LParen] ++ argument
    ++ [LBracket; Zero; RBracket; RParen].
Proof.
  unfold SIZE, expand, SIZE_body. cbn [flat_map app].
  reflexivity.
Qed.

(** X11: the macro as the README prints it leaves a parenthesis open:
    [SIZE(argument)] expands to tokens with one more opening than closing
    parenthesis for an argument whose own parentheses pair up, and for no
    argument at all do the parentheses of the expansion pair up. *)
Theorem SIZE_leaves_parenthesis_open (argument : list token) :
  net_parens (SIZE argument) = 2 * net_parens argument + 1 /\
  paired (SIZE argument) = false /\
  (paired argument = true -> net_parens (SIZE argument) = 1).
Proof.
  assert (Hnet : net_parens (SIZE argument) = 2 * net_parens argument + 1).
  { rewrite SIZE_tokens, !net_parens_app. cbn [net_parens]. ring. }
  split; [ exact Hnet | split ].
  - destruct (paired (SIZE argument)) eqn:Hp; [ | reflexivity ].
    apply paired_from_net in Hp. lia.
  - intros Hp. apply paired_from_net in Hp. lia.
Qed.

Lemma SIZE_leaves_parenthesis_open_witness :
  net_parens (SIZE [Ident "array"]) = 1.
Proof.
  exact (proj2 (proj2 (SIZE_leaves_parenthesis_open [Ident "array"])) eq_refl).
Defined.

(** ** The sketch over many iterations *)

Lemma world_eta (w : world) :
  {| mem := mem w; drawn := drawn w ++ [] |} = w.
Proof. destruct w as [m d]. cbn. now rewrite app_nil_r. Qed.

Lemma due_replicate (n : nat) :
  length (List.filter (fun f : bool => f) (replicate n true)) = n.
Proof.
  induction n as [ | n IH ]; [ reflexivity | ].
  cbn [replicate List.filter length]. now rewrite IH.
Qed.

(** X13: a run of the sketch never fails, never writes the arrays, and
    leaves on record one block of eight calls, [clear] first and [display]
    last, per iteration on which a frame was due; the iterations on which
    none was due leave no trace, so the run is the run over the due frames
    alone. *)
Theorem sketch_run_result (frames : list bool) (w : world) :
  let due := length (List.filter (fun f : bool => f) frames) in
  iterate frames w
    = Some (tt, {| mem := mem w;
                   drawn := drawn w ++ concat (replicate due frame_events) |}) /\
  iterate frames w = iterate (replicate due true) w.
Proof.
  cbn zeta.
  assert (Hrun : forall fs v,
            iterate fs v
            = Some (tt, {| mem := mem v;
                           drawn := drawn v ++
                             concat (replicate
                               (length (List.filter (fun f : bool => f) fs))
                               frame_events) |})).
  { induction fs as [ | f rest IH ]; intros v.
    - cbn. now rewrite world_eta.
    - cbn [iterate]. unfold bind. destruct f.
      + rewrite loop_frame, IH. cbn [List.filter length replicate concat mem drawn].
        now rewrite <- app_assoc.
      + rewrite loop_no_frame, IH. reflexivity. }
  split; [ apply Hrun | ].
  now rewrite !Hrun, due_replicate.
Qed.
